(** * my_first_agent.py: a credential-gated tool registration script

    Shallow embedding of [example/my_first_agent.py].  The script builds a
    [SpoonReactAI] agent, installs a [ChatBot] and a system prompt, registers
    a Tavily search tool when [os.getenv("TAVILY_API_KEY")] is truthy, runs
    one query and prints the answer.

    The framework ([spoon_ai]) is not part of the script: its two opaque
    constructors and [agent.run] are the operations of the class [SpoonAI]
    below, each of which may raise.  What [MCPTool(...)] and
    [ToolManager(...)] build is given by two records, the tool descriptor and
    the tool set of the specification's data model.  The script is embedded
    twice: with the two tool constructors storing their arguments in these
    records, and, in [Raising], with the two as calls that may raise as
    well; the first is the second at the storing constructors. *)

From stdpp Require Import base option strings gmap.

Set Default Proof Using "Type".

(** ** Python values and effects *)

(** Exceptions that can reach the process boundary.  The script names none;
    the first two are the failures the specification attributes to [run]. *)
Inductive exn : Type :=
  | BackendUnavailable
  | ToolInvocationError
  | PyException (msg : string).

(** The result of a call: a value, or a raised exception. *)
Inductive outcome (A : Type) : Type :=
  | Ok (a : A)
  | Raise (e : exn).
Arguments Ok {A} a.
Arguments Raise {A} e.

(** Standard output is the text written so far.  A computation of the script
    threads it and may stop with an exception; what was written before the
    exception stays written. *)
Definition stdout : Type := string.
Definition IO (A : Type) : Type := stdout → outcome A * stdout.

Definition io_ret {A} (a : A) : IO A := λ out, (Ok a, out).

Definition io_bind {A B} (k : A → IO B) (m : IO A) : IO B := λ out,
  match m out with
  | (Ok a, out') => k a out'
  | (Raise e, out') => (Raise e, out')
  end.

#[global] Instance IO_ret : MRet IO := @io_ret.
#[global] Instance IO_bind : MBind IO := @io_bind.

(** A call into the framework: it returns or raises, and writes nothing to
    the script's standard output. *)
Definition call {A} (r : outcome A) : IO A := λ out, (r, out).

Definition newline : string := String (Ascii.ascii_of_nat 10) "".

(** [print(s)]: the text followed by a line feed. *)
Definition print (s : string) : IO unit := λ out, (Ok (), out +:+ s +:+ newline).

(** [os.getenv(k)] on the process environment: [None] when the variable is
    unset. *)
Definition os_getenv (environ : gmap string string) (k : string) : option string :=
  environ !! k.

(** Truth value of an [Optional[str]] in an [if]: [None] and the empty string
    are false. *)
Definition truthy (v : option string) : bool :=
  match v with
  | None => false
  | Some "" => false
  | Some _ => true
  end.

(** ** Tool descriptors *)

(** The [mcp_config] dictionary literal, with its three keys. *)
Record McpConfig : Type := {
  command : string;
  args : list string;
  env : gmap string (option string);
}.

(** Modelled from the spec: the Tool Descriptor that [MCPTool(...)] of
    [spoon_ai.tools.mcp_tool] builds, a name, a description and a launch
    specification; the class is not part of the script.  The fields are the
    constructor's three keyword arguments. *)
Record MCPTool : Type := {
  name : string;
  description : string;
  mcp_config : McpConfig;
}.

(** Modelled from the spec: the tool set that [ToolManager(tools)] of
    [spoon_ai.tools] builds, an ordered collection of tools; the class is not
    part of the script. *)
Record ToolManager : Type := { tools : list MCPTool }.

(** ** The agent object *)

Record Agent (B : Type) : Type := {
  llm : option B;
  system_prompt : option string;
  avaliable_tools : ToolManager;
}.
Arguments llm {B} _.
Arguments system_prompt {B} _.
Arguments avaliable_tools {B} _.

(** Attribute assignments [agent.llm = v], [agent.system_prompt = v] and
    [agent.avaliable_tools = v]. *)
Definition set_llm {B} (v : B) (agent : Agent B) : Agent B :=
  {| llm := Some v;
     system_prompt := system_prompt agent;
     avaliable_tools := avaliable_tools agent |}.

Definition set_system_prompt {B} (v : string) (agent : Agent B) : Agent B :=
  {| llm := llm agent;
     system_prompt := Some v;
     avaliable_tools := avaliable_tools agent |}.

Definition set_avaliable_tools {B} (v : ToolManager) (agent : Agent B) : Agent B :=
  {| llm := llm agent;
     system_prompt := system_prompt agent;
     avaliable_tools := v |}.

(** ** The framework *)

(** What the script imports from [spoon_ai]: [SpoonReactAI()], [ChatBot()]
    and [agent.run(query)].  [B] is the type of chat backends. *)
Class SpoonAI (B : Type) : Type := {
  SpoonReactAI : outcome (Agent B);
  ChatBot : outcome B;
  run : Agent B → string → outcome string;
}.

(** ** The script *)

Definition TAVILY_API_KEY : string := "TAVILY_API_KEY".

(** Lines 17-25: the descriptor, with the second [os.getenv] in [env]. *)
Definition search_tool (environ : gmap string string) : MCPTool :=
  {| name := "tavily-search";
     description := "Web search via Tavily MCP";
     mcp_config :=
       {| command := "npx";
          args := ["--yes"; "tavily-mcp"];
          env := {[ TAVILY_API_KEY := os_getenv environ TAVILY_API_KEY ]} |} |}.

(** Lines 16-26: the conditional registration, with [MCPTool(...)] and
    [ToolManager(...)] returning the records of their arguments.
    [Raising.provision] below is the same step with the two as calls that
    may raise. *)
Definition provision {B} (environ : gmap string string) (agent : Agent B) : Agent B :=
  if truthy (os_getenv environ TAVILY_API_KEY)
  then set_avaliable_tools {| tools := [search_tool environ] |} agent
  else agent.

(** The agent that lines 12-26 leave behind, given what the two constructors
    returned. *)
Definition configured {B} (environ : gmap string string) (a0 : Agent B) (b : B) : Agent B :=
  provision environ
    (set_system_prompt "You are a helpful AI assistant." (set_llm b a0)).

Section Script.
Context {B : Type} {framework : SpoonAI B}.

(** Lines 11-26: everything before the query. *)
Definition configure (environ : gmap string string) : IO (Agent B) :=
  agent ← call SpoonReactAI;
  bot ← call ChatBot;
  let agent := set_llm bot agent in
  let agent := set_system_prompt "You are a helpful AI assistant." agent in
  mret (provision environ agent).

Definition query : string := "Hello! What is SpoonOS?".

(** Lines 10-29. [await] is the only suspension point and the script runs a
    single task, so the call is modelled as blocking. *)
Definition main (environ : gmap string string) : IO unit :=
  agent ← configure environ;
  res ← call (run agent query);
  print res.

(** Lines 32-33: the process starts with nothing written. *)
Definition script (environ : gmap string string) : outcome unit * stdout :=
  main environ "".
End Script.

(** ** The script with the tool constructors as calls *)

(** [MCPTool(...)] and [ToolManager(...)] of lines 17 and 26 are calls into
    [spoon_ai.tools]: each returns an object or raises. *)
Class SpoonAITools : Type := {
  new_MCPTool : string → string → McpConfig → outcome MCPTool;
  new_ToolManager : list MCPTool → outcome ToolManager;
}.

Module Raising.
Section RaisingScript.
Context {B : Type} {framework : SpoonAI B} {toolkit : SpoonAITools}.

(** Lines 17-25: the call that builds the descriptor. *)
Definition search_tool (environ : gmap string string) : outcome MCPTool :=
  new_MCPTool "tavily-search" "Web search via Tavily MCP"
    {| command := "npx";
       args := ["--yes"; "tavily-mcp"];
       env := {[ TAVILY_API_KEY := os_getenv environ TAVILY_API_KEY ]} |}.

(** Lines 16-26: no constructor is called unless the test of line 16
    succeeds. *)
Definition provision (environ : gmap string string) (agent : Agent B) : IO (Agent B) :=
  if truthy (os_getenv environ TAVILY_API_KEY)
  then
    tool ← call (search_tool environ);
    manager ← call (new_ToolManager [tool]);
    mret (set_avaliable_tools manager agent)
  else mret agent.

(** Lines 11-26. *)
Definition configure (environ : gmap string string) : IO (Agent B) :=
  agent ← call SpoonReactAI;
  bot ← call ChatBot;
  let agent := set_llm bot agent in
  let agent := set_system_prompt "You are a helpful AI assistant." agent in
  provision environ agent.

(** Lines 10-29. *)
Definition main (environ : gmap string string) : IO unit :=
  agent ← configure environ;
  res ← call (run agent query);
  print res.
End RaisingScript.
End Raising.

(** The constructors that return the records of their arguments. *)
Definition storing_tools : SpoonAITools :=
  {| new_MCPTool := λ n d c, Ok {| name := n; description := d; mcp_config := c |};
     new_ToolManager := λ l, Ok {| tools := l |} |}.


(** ** Stand-ins for the framework *)

(** Modelled from the spec: the chat backend of [spoon_ai.chat], which is not
    part of the script.  A backend answers a prompt with a text or fails. *)
Record Backend : Type := { complete : string → outcome string }.

(** Modelled from the spec: [run] of the Agent Shell, which lives in
    [spoon_ai.agents].  It fails with [BackendUnavailable] when no backend
    can be reached, fails as the backend fails, and otherwise returns the
    backend's final text. *)
Definition spec_run (agent : Agent Backend) (q : string) : outcome string :=
  match llm agent with
  | Some b => complete b q
  | None => Raise BackendUnavailable
  end.

(** Modelled from the spec: the agent as [SpoonReactAI()] of
    [spoon_ai.agents] returns it, before any configuration: no backend, no
    prompt, and an empty tool set. *)
Definition spec_agent : Agent Backend :=
  {| llm := None; system_prompt := None; avaliable_tools := {| tools := [] |} |}.

(** The stub backends of the specification's test scenarios. *)
Definition echo_backend (prefix : string) : Backend :=
  {| complete := λ q, Ok (prefix +:+ q) |}.

Definition failing_backend (e : exn) : Backend :=
  {| complete := λ _, Raise e |}.

Definition spec_framework (agent : Agent Backend) (bot : Backend) : SpoonAI Backend :=
  {| SpoonReactAI := Ok agent; ChatBot := Ok bot; run := spec_run |}.

(** The framework of the test scenarios: the constructor returns the bare
    agent, and [ChatBot()] the echoing backend. *)
Definition echo_framework : SpoonAI Backend :=
  spec_framework spec_agent (echo_backend "echo: ").

(** Two process environments: the credential of the specification's example,
    and a credential that is set to the empty string. *)
Definition abc123_environ : gmap string string := {[ TAVILY_API_KEY := "abc123" ]}.

Definition empty_credential_environ : gmap string string := {[ TAVILY_API_KEY := "" ]}.

(** A framework whose agent constructor raises, and an environment that
    holds the credential beside another variable. *)
Definition broken_constructor_framework (e : exn) : SpoonAI Backend :=
  {| SpoonReactAI := Raise e;
     ChatBot := Ok (echo_backend "echo: ");
     run := spec_run |}.

Definition abc123_path_environ : gmap string string :=
  <[ "PATH" := "/usr/bin" ]> abc123_environ.

(** ** Basic facts about the script's steps *)

Lemma truthy_Some_nonempty (v : string) : v ≠ "" → truthy (Some v) = true.
Proof. by destruct v. Qed.


Lemma provision_registers {B} (environ : gmap string string) (agent : Agent B) :
  truthy (os_getenv environ TAVILY_API_KEY) = true →
  provision environ agent
  = set_avaliable_tools {| tools := [search_tool environ] |} agent.
Proof. intros Ht. unfold provision. by rewrite Ht. Qed.

Lemma provision_skips {B} (environ : gmap string string) (agent : Agent B) :
  truthy (os_getenv environ TAVILY_API_KEY) = false →
  provision environ agent = agent.
Proof. intros Ht. unfold provision. by rewrite Ht. Qed.

Lemma provision_llm {B} (environ : gmap string string) (agent : Agent B) :
  llm (provision environ agent) = llm agent.
Proof. unfold provision. by destruct (truthy _). Qed.

Lemma provision_system_prompt {B} (environ : gmap string string) (agent : Agent B) :
  system_prompt (provision environ agent) = system_prompt agent.
Proof. unfold provision. by destruct (truthy _). Qed.

Section ScriptFacts.
Context {B : Type} {framework : SpoonAI B}.

Lemma configure_ok environ out a0 b :
  SpoonReactAI = Ok a0 → ChatBot = Ok b →
  configure environ out = (Ok (configured environ a0 b), out).
Proof.
  intros Ha Hb. unfold configure, mbind, IO_bind, io_bind, call.
  by rewrite Ha, Hb.
Qed.

Lemma configured_llm environ (a0 : Agent B) (b : B) : llm (configured environ a0 b) = Some b.
Proof. unfold configured. by rewrite provision_llm. Qed.

Lemma main_unfold environ out a0 b :
  SpoonReactAI = Ok a0 → ChatBot = Ok b →
  main environ out
  = match run (configured environ a0 b) query with
    | Ok res => (Ok (), out +:+ res +:+ newline)
    | Raise e => (Raise e, out)
    end.
Proof.
  intros Ha Hb. unfold main, mbind, IO_bind, io_bind.
  rewrite (configure_ok _ _ _ _ Ha Hb). unfold call, print.
  by destruct (run _ _).
Qed.

(** A returned answer is printed as one line after what was there. *)
Lemma main_prints environ out a0 b res :
  SpoonReactAI = Ok a0 → ChatBot = Ok b →
  run (configured environ a0 b) query = Ok res →
  main environ out = (Ok (), out +:+ res +:+ newline).
Proof. intros Ha Hb Hrun. rewrite (main_unfold _ _ _ _ Ha Hb). by rewrite Hrun. Qed.

(** A failure of either constructor ends the script before anything is
    written. *)
Lemma main_constructor_raises environ out e :
  SpoonReactAI = Raise e ∨ (∃ a0, SpoonReactAI = Ok a0 ∧ ChatBot = Raise e) →
  main environ out = (Raise e, out).
Proof.
  intros [Ha|(a0 & Ha & Hb)];
    unfold main, configure, mbind, IO_bind, io_bind, call.
  - by rewrite Ha.
  - by rewrite Ha, Hb.
Qed.
End ScriptFacts.

Section RaisingFacts.
Context {B : Type} {framework : SpoonAI B} {toolkit : SpoonAITools}.

(** The provisioning step with its two calls written out. *)
Lemma raising_provision_unfold environ (agent : Agent B) out :
  Raising.provision environ agent out
  = if truthy (os_getenv environ TAVILY_API_KEY)
    then match Raising.search_tool environ with
         | Raise e => (Raise e, out)
         | Ok tool =>
             match new_ToolManager [tool] with
             | Raise e => (Raise e, out)
             | Ok manager => (Ok (set_avaliable_tools manager agent), out)
             end
         end
    else (Ok agent, out).
Proof.
  unfold Raising.provision. destruct (truthy _); [|done].
  unfold mbind, IO_bind, io_bind, call.
  destruct (Raising.search_tool environ) as [tool|e]; [|done].
  by destruct (new_ToolManager [tool]).
Qed.



End RaisingFacts.

(** With the storing constructors the script is the one of the first
    embedding. *)
Lemma raising_provision_storing {B} environ (agent : Agent B) out :
  Raising.provision (toolkit := storing_tools) environ agent out
  = (Ok (provision environ agent), out).
Proof.
  rewrite raising_provision_unfold. unfold provision.
  by destruct (truthy _).
Qed.

Lemma raising_main_storing {B} {framework : SpoonAI B} environ out :
  Raising.main (toolkit := storing_tools) environ out = main environ out.
Proof.
  unfold Raising.main, main, Raising.configure, configure,
    mbind, IO_bind, io_bind, call.
  destruct SpoonReactAI as [a0|e]; [|done].
  destruct ChatBot as [b|e]; [|done].
  by rewrite raising_provision_storing.
Qed.

(** ** The claims *)

Section Claims.
Context {B : Type} {framework : SpoonAI B}.

(** C1. With the credential unset the configured agent holds no tool, and
    it holds a tool only if the credential was present.  The constructor's
    own tool set is the empty one of the specification's data model. *)
Theorem tool_set_empty_without_credential environ out a0 b
    (Hagent : SpoonReactAI = Ok a0) (Hbot : ChatBot = Ok b)
    (Hdefault : tools (avaliable_tools a0) = []) :
  ∃ agent,
    configure environ out = (Ok agent, out) ∧
    (environ !! TAVILY_API_KEY = None → tools (avaliable_tools agent) = []) ∧
    (tools (avaliable_tools agent) ≠ [] → is_Some (environ !! TAVILY_API_KEY)).
Proof.
  exists (configured environ a0 b). split; [by apply configure_ok|].
  unfold configured, provision, os_getenv.
  destruct (environ !! TAVILY_API_KEY) as [v|] eqn:Hv; simpl.
  - split; [done|]. by eexists.
  - by split.
Qed.

(** C2. For a non-empty credential [v] the registered descriptor launches
    [npx --yes tavily-mcp] and its environment mapping is exactly
    [{"TAVILY_API_KEY": v}]. *)
Theorem descriptor_launch_spec (environ : gmap string string) (v : string)
    (agent : Agent B)
    (Hcred : environ !! TAVILY_API_KEY = Some v) (Hne : v ≠ "") :
  ∃ t,
    tools (avaliable_tools (provision environ agent)) = [t] ∧
    env (mcp_config t) = {[ TAVILY_API_KEY := Some v ]} ∧
    command (mcp_config t) = "npx" ∧
    args (mcp_config t) = ["--yes"; "tavily-mcp"].
Proof.
  exists (search_tool environ). rewrite provision_registers.
  - simpl. unfold os_getenv. by rewrite Hcred.
  - unfold os_getenv. rewrite Hcred. by apply truthy_Some_nonempty.
Qed.

(** C3, as amended. When the credential is present and not the empty string,
    the agent's tool set becomes the one-element list holding the
    descriptor, whatever it held before; nothing else changes. *)
Theorem nonempty_credential_registers_one (environ : gmap string string)
    (v : string) (agent : Agent B)
    (Hcred : environ !! TAVILY_API_KEY = Some v) (Hne : v ≠ "") :
  avaliable_tools (provision environ agent)
    = {| tools := [search_tool environ] |} ∧
  length (tools (avaliable_tools (provision environ agent))) = 1 ∧
  llm (provision environ agent) = llm agent ∧
  system_prompt (provision environ agent) = system_prompt agent.
Proof.
  rewrite provision_registers; [done|].
  unfold os_getenv. rewrite Hcred. by apply truthy_Some_nonempty.
Qed.


(** C5. Against the stub backend that answers a query by the query behind a
    fixed prefix, [run("Hello! What is SpoonOS?")] on the configured agent
    returns the prefixed query, and the script prints that text as its only
    output. *)
Theorem echo_response_printed (environ : gmap string string) (prefix : string)
    (a0 : Agent Backend) :
  ∃ agent,
    @configure _ (spec_framework a0 (echo_backend prefix)) environ ""
      = (Ok agent, "") ∧
    @run _ (spec_framework a0 (echo_backend prefix)) agent
      "Hello! What is SpoonOS?" = Ok (prefix +:+ "Hello! What is SpoonOS?") ∧
    @script _ (spec_framework a0 (echo_backend prefix)) environ
      = (Ok (), (prefix +:+ "Hello! What is SpoonOS?") +:+ newline).
Proof.
  exists (configured environ a0 (echo_backend prefix)).
  assert (spec_run (configured environ a0 (echo_backend prefix)) query
          = Ok (prefix +:+ query)) as Hrun.
  { unfold spec_run. by rewrite configured_llm. }
  split; [by apply (configure_ok (framework := spec_framework _ _))|].
  split; [exact Hrun|].
  unfold script.
  by rewrite (main_prints (framework := spec_framework _ _) environ ""
                a0 (echo_backend prefix) (prefix +:+ query)).
Qed.

(** C6. When the [run] call fails, the script ends with that exception, no
    handler in between, and standard output is left as it was: nothing is
    printed. *)
Theorem backend_failure_propagates environ out e a0 b
    (Hagent : SpoonReactAI = Ok a0) (Hbot : ChatBot = Ok b)
    (Hfail : run (configured environ a0 b) "Hello! What is SpoonOS?" = Raise e) :
  main environ out = (Raise e, out) ∧ script environ = (Raise e, "").
Proof.
  unfold script. rewrite !(main_unfold _ _ _ _ Hagent Hbot).
  unfold query. by rewrite Hfail.
Qed.

(** C7. Assigning the tool set replaces it: after a first and then a second
    assignment the agent holds the second list only, and the provisioning
    step on an agent that already holds tools leaves the descriptor alone in
    the tool set. *)
Theorem tool_set_assignment_replaces (first second : list MCPTool)
    (environ : gmap string string) (agent : Agent B) :
  tools (avaliable_tools
           (set_avaliable_tools {| tools := second |}
              (set_avaliable_tools {| tools := first |} agent))) = second ∧
  set_avaliable_tools {| tools := second |}
    (set_avaliable_tools {| tools := first |} agent)
  = set_avaliable_tools {| tools := second |} agent ∧
  tools (avaliable_tools
           (provision environ (set_avaliable_tools {| tools := first |} agent)))
  = if truthy (os_getenv environ TAVILY_API_KEY)
    then [search_tool environ] else first.
Proof.
  split; [done|]. split; [done|].
  unfold provision. by destruct (truthy _).
Qed.

(** C8. A credential that is present but empty takes the branch without
    registration: the agent is left as it was. *)
Theorem empty_credential_not_registered (environ : gmap string string)
    (agent : Agent B) (Hcred : environ !! TAVILY_API_KEY = Some "") :
  truthy (os_getenv environ TAVILY_API_KEY) = false ∧
  provision environ agent = agent.
Proof.
  assert (truthy (os_getenv environ TAVILY_API_KEY) = false) as Ht.
  { unfold os_getenv. by rewrite Hcred. }
  split; [done|]. by apply provision_skips.
Qed.

(** C9. With the credential absent the tool-set field is the one the
    constructor installed, and [llm] and [system_prompt] are the same in
    either branch. *)
Theorem absent_credential_keeps_default environ out a0 b
    (Hagent : SpoonReactAI = Ok a0) (Hbot : ChatBot = Ok b) :
  ∃ agent,
    configure environ out = (Ok agent, out) ∧
    llm agent = Some b ∧
    system_prompt agent = Some "You are a helpful AI assistant." ∧
    (environ !! TAVILY_API_KEY = None →
     avaliable_tools agent = avaliable_tools a0 ∧
     agent = set_system_prompt "You are a helpful AI assistant." (set_llm b a0)).
Proof.
  exists (configured environ a0 b). split; [by apply configure_ok|].
  split; [by apply configured_llm|].
  split; [unfold configured; by rewrite provision_system_prompt|].
  intros Hnone. unfold configured. rewrite provision_skips; [done|].
  unfold os_getenv. by rewrite Hnone.
Qed.

(** C10. For a non-empty credential [v] the descriptor is named
    ["tavily-search"], described as ["Web search via Tavily MCP"], and is the
    same record for every [v] but for the value in its environment mapping. *)
Theorem descriptor_name_description (environ : gmap string string) (v : string)
    (agent : Agent B)
    (Hcred : environ !! TAVILY_API_KEY = Some v) (Hne : v ≠ "") :
  ∃ t,
    tools (avaliable_tools (provision environ agent)) = [t] ∧
    name t = "tavily-search" ∧
    description t = "Web search via Tavily MCP" ∧
    t = {| name := "tavily-search";
           description := "Web search via Tavily MCP";
           mcp_config :=
             {| command := "npx";
                args := ["--yes"; "tavily-mcp"];
                env := {[ TAVILY_API_KEY := Some v ]} |} |}.
Proof.
  exists (search_tool environ). rewrite provision_registers.
  - unfold search_tool, os_getenv. by rewrite Hcred.
  - unfold os_getenv. rewrite Hcred. by apply truthy_Some_nonempty.
Qed.
End Claims.

(** ** The claims at concrete inputs *)

Lemma tool_set_empty_without_credential_witness :
  ∃ agent,
    @configure _ echo_framework ∅ "" = (Ok agent, "") ∧
    ((∅ : gmap string string) !! TAVILY_API_KEY = None →
     tools (avaliable_tools agent) = []) ∧
    (tools (avaliable_tools agent) ≠ [] →
     is_Some ((∅ : gmap string string) !! TAVILY_API_KEY)).
Proof.
  apply (@tool_set_empty_without_credential _ echo_framework ∅ ""
           spec_agent (echo_backend "echo: ")); reflexivity.
Defined.

Lemma descriptor_launch_spec_witness :
  ∃ t,
    tools (avaliable_tools (provision abc123_environ spec_agent)) = [t] ∧
    env (mcp_config t) = {[ TAVILY_API_KEY := Some "abc123" ]} ∧
    command (mcp_config t) = "npx" ∧
    args (mcp_config t) = ["--yes"; "tavily-mcp"].
Proof.
  apply (descriptor_launch_spec abc123_environ "abc123" spec_agent);
    [reflexivity | discriminate].
Defined.

(** C3 as stated fails: the variable is present with the empty string, and
    the provisioning step registers nothing. *)
Lemma present_empty_credential_registers_nothing :
  empty_credential_environ !! TAVILY_API_KEY = Some "" ∧
  tools (avaliable_tools (provision empty_credential_environ spec_agent)) = [] ∧
  ¬ ∃ t, tools (avaliable_tools (provision empty_credential_environ spec_agent)) = [t].
Proof.
  split; [reflexivity|]. split; [reflexivity|].
  intros [t Ht]. vm_compute in Ht. discriminate Ht.
Qed.

Lemma nonempty_credential_registers_one_witness :
  avaliable_tools (provision abc123_environ spec_agent)
    = {| tools := [search_tool abc123_environ] |} ∧
  length (tools (avaliable_tools (provision abc123_environ spec_agent))) = 1 ∧
  llm (provision abc123_environ spec_agent) = llm spec_agent ∧
  system_prompt (provision abc123_environ spec_agent) = system_prompt spec_agent.
Proof.
  apply (nonempty_credential_registers_one abc123_environ "abc123" spec_agent);
    [reflexivity | discriminate].
Defined.



Lemma backend_failure_propagates_witness :
  @main _ (spec_framework spec_agent (failing_backend BackendUnavailable))
     abc123_environ "" = (Raise BackendUnavailable, "") ∧
  @script _ (spec_framework spec_agent (failing_backend BackendUnavailable))
     abc123_environ = (Raise BackendUnavailable, "").
Proof.
  apply (@backend_failure_propagates _
           (spec_framework spec_agent (failing_backend BackendUnavailable))
           abc123_environ "" BackendUnavailable
           spec_agent (failing_backend BackendUnavailable)); reflexivity.
Defined.

Lemma empty_credential_not_registered_witness :
  truthy (os_getenv empty_credential_environ TAVILY_API_KEY) = false ∧
  provision empty_credential_environ spec_agent = spec_agent.
Proof.
  apply (empty_credential_not_registered empty_credential_environ spec_agent).
  reflexivity.
Defined.

Lemma absent_credential_keeps_default_witness :
  ∃ agent,
    @configure _ echo_framework ∅ "" = (Ok agent, "") ∧
    llm agent = Some (echo_backend "echo: ") ∧
    system_prompt agent = Some "You are a helpful AI assistant." ∧
    ((∅ : gmap string string) !! TAVILY_API_KEY = None →
     avaliable_tools agent = avaliable_tools spec_agent ∧
     agent = set_system_prompt "You are a helpful AI assistant."
               (set_llm (echo_backend "echo: ") spec_agent)).
Proof.
  apply (@absent_credential_keeps_default _ echo_framework ∅ ""
           spec_agent (echo_backend "echo: ")); reflexivity.
Defined.

Lemma descriptor_name_description_witness :
  ∃ t,
    tools (avaliable_tools (provision abc123_environ spec_agent)) = [t] ∧
    name t = "tavily-search" ∧
    description t = "Web search via Tavily MCP" ∧
    t = {| name := "tavily-search";
           description := "Web search via Tavily MCP";
           mcp_config :=
             {| command := "npx";
                args := ["--yes"; "tavily-mcp"];
                env := {[ TAVILY_API_KEY := Some "abc123" ]} |} |}.
Proof.
  apply (descriptor_name_description abc123_environ "abc123" spec_agent);
    [reflexivity | discriminate].
Defined.

(** ** Further properties of the script *)

Section Further.
Context {B : Type} {framework : SpoonAI B}.

(** X1. A constructor that raises ends the script with its exception before
    anything is written: [SpoonReactAI()] first, whatever [ChatBot()] would
    do, then [ChatBot()]. *)
Theorem constructor_failure_propagates environ out e
    (Hraise : SpoonReactAI = Raise e ∨
              (∃ a0, SpoonReactAI = Ok a0 ∧ ChatBot = Raise e)) :
  configure environ out = (Raise e, out) ∧
  main environ out = (Raise e, out) ∧
  script environ = (Raise e, "").
Proof.
  split; [|split; [|unfold script]; by apply main_constructor_raises].
  destruct Hraise as [Ha|(a0 & Ha & Hb)];
    unfold configure, mbind, IO_bind, io_bind, call.
  - by rewrite Ha.
  - by rewrite Ha, Hb.
Qed.


(** X3. Running the provisioning step a second time changes nothing: the
    tool set does not grow. *)
Theorem provision_idempotent (environ : gmap string string) (agent : Agent B) :
  provision environ (provision environ agent) = provision environ agent.
Proof.
  unfold provision. by destruct (truthy (os_getenv environ TAVILY_API_KEY)).
Qed.

(** X4. The registration step reads no variable but [TAVILY_API_KEY] and
    forwards no other: two environments that agree on it take the same
    branch and build the same descriptor and the same agent, and the
    descriptor's environment mapping has that one key. *)
Theorem only_credential_variable_read (environ1 environ2 : gmap string string)
    (Hsame : environ1 !! TAVILY_API_KEY = environ2 !! TAVILY_API_KEY) :
  truthy (os_getenv environ1 TAVILY_API_KEY)
  = truthy (os_getenv environ2 TAVILY_API_KEY) ∧
  search_tool environ1 = search_tool environ2 ∧
  (∀ agent : Agent B, provision environ1 agent = provision environ2 agent) ∧
  dom (env (mcp_config (search_tool environ1))) = {[ TAVILY_API_KEY ]}.
Proof.
  assert (search_tool environ1 = search_tool environ2) as Htool.
  { unfold search_tool, os_getenv. by rewrite Hsame. }
  split; [unfold os_getenv; by rewrite Hsame|]. split; [done|].
  split.
  - intros agent. unfold provision, os_getenv. by rewrite Hsame, Htool.
  - simpl. apply dom_singleton_L.
Qed.

(** X5. On an agent without tools, the provisioning step leaves a tool
    exactly when the credential is set to a non-empty string. *)
Theorem registration_iff_nonempty_credential (environ : gmap string string)
    (agent : Agent B) (Hempty : tools (avaliable_tools agent) = []) :
  tools (avaliable_tools (provision environ agent)) ≠ [] ↔
  ∃ v, environ !! TAVILY_API_KEY = Some v ∧ v ≠ "".
Proof.
  unfold provision, os_getenv.
  destruct (environ !! TAVILY_API_KEY) as [[|c v]|]; simpl.
  - split; [done|]. by intros (v & [= <-] & Hne).
  - split; [|done]. intros _. by eexists.
  - split; [done|]. by intros (v & ? & _).
Qed.

(** X6. A credential set to the empty string and an unset credential are the
    same to the script: same provisioned agent, same result, same output. *)
Theorem empty_credential_same_as_unset (environ : gmap string string) out :
  (∀ agent : Agent B,
     provision (<[ TAVILY_API_KEY := "" ]> environ) agent = agent ∧
     provision (delete TAVILY_API_KEY environ) agent = agent) ∧
  main (<[ TAVILY_API_KEY := "" ]> environ) out
  = main (delete TAVILY_API_KEY environ) out.
Proof.
  assert (∀ agent : Agent B,
            provision (<[ TAVILY_API_KEY := "" ]> environ) agent = agent ∧
            provision (delete TAVILY_API_KEY environ) agent = agent) as Hprov.
  { intros agent. split; apply provision_skips; unfold os_getenv.
    - by rewrite lookup_insert_eq.
    - by rewrite lookup_delete_eq. }
  split; [done|].
  unfold main, configure, mbind, IO_bind, io_bind, call.
  destruct SpoonReactAI as [a0|e]; [|done].
  destruct ChatBot as [b|e]; [|done].
  unfold mret, IO_ret, io_ret.
  destruct (Hprov (set_system_prompt "You are a helpful AI assistant."
                     (set_llm b a0))) as [-> ->]. done.
Qed.
End Further.

Lemma constructor_failure_propagates_witness :
  @configure _ (broken_constructor_framework ToolInvocationError)
     abc123_environ "" = (Raise ToolInvocationError, "") ∧
  @main _ (broken_constructor_framework ToolInvocationError)
     abc123_environ "" = (Raise ToolInvocationError, "") ∧
  @script _ (broken_constructor_framework ToolInvocationError)
     abc123_environ = (Raise ToolInvocationError, "").
Proof.
  apply (@constructor_failure_propagates _
           (broken_constructor_framework ToolInvocationError)
           abc123_environ "" ToolInvocationError).
  left. reflexivity.
Defined.

Lemma only_credential_variable_read_witness :
  truthy (os_getenv abc123_path_environ TAVILY_API_KEY)
  = truthy (os_getenv abc123_environ TAVILY_API_KEY) ∧
  search_tool abc123_path_environ = search_tool abc123_environ ∧
  (∀ agent : Agent Backend,
     provision abc123_path_environ agent = provision abc123_environ agent) ∧
  dom (env (mcp_config (search_tool abc123_path_environ))) = {[ TAVILY_API_KEY ]}.
Proof.
  apply (@only_credential_variable_read Backend
           abc123_path_environ abc123_environ).
  vm_compute. reflexivity.
Defined.

Lemma registration_iff_nonempty_credential_witness :
  tools (avaliable_tools (provision abc123_environ spec_agent)) ≠ [] ↔
  ∃ v, abc123_environ !! TAVILY_API_KEY = Some v ∧ v ≠ "".
Proof.
  apply (registration_iff_nonempty_credential abc123_environ spec_agent).
  reflexivity.
Defined.
